(** * stock_api: the inventory counter backend

    A shallow embedding of [stock_api.py]: the configuration read from the
    environment, the credential loader [get_sheets_service] and the
    endpoint handlers [health], [get_items] and [submit_count].

    The Google client libraries, the file system and the clock are outside
    the program: they are gathered in a record [World] of oracles, and each
    handler is a computation that reads the configuration and the world,
    may raise, and records the calls it makes in a trace. *)

From Stdlib Require Import String Ascii List Bool Arith NArith ZArith Lia.
From Stdlib Require Import SpecFloat.
Import ListNotations.
Open Scope string_scope.

Set Warnings "-register-all".

(** ** Configuration (module-level constants, lines 29-36) *)

(** [os.getenv] gives [None] for a variable that is not in the environment
    and the text of the variable otherwise, the empty text included. *)
Record Config := mkConfig {
  SHEET_ID : option string;
  SERVICE_ACCOUNT_JSON : option string;
  SERVICE_FILE : option string;
  SHARED_PIN : option string
}.

Definition TAB_NAME : string := "Input_Counts".
Definition SCOPES : list string :=
  ["https://www.googleapis.com/auth/spreadsheets"].
Definition ITEM_MASTER_RANGE : string := "Item_Master!B2:B".

(** Truth value of an [Optional[str]]: [None] and the empty text are false. *)
Definition truthy (o : option string) : bool :=
  match o with
  | Some (String _ _) => true
  | _ => false
  end.

(** The text held by a variable that is known to be set. *)
Definition text_of (o : option string) : string :=
  match o with
  | Some s => s
  | None => ""
  end.

(** ** Values exchanged with clients and with the remote service *)

(** A Python [float] is an IEEE 754 binary64 value: a signed zero, an
    infinity, a NaN, or sign, mantissa and exponent. *)
Definition float : Set := spec_float.

(** The number 3.5, that is 7881299347898368 * 2^-51. *)
Definition three_and_a_half : float :=
  S754_finite false 7881299347898368 (-51).

Inductive Json :=
| JStr (s : string)
| JNum (x : float)
| JList (l : list Json)
| JDict (d : list (string * Json)).

(** [class CountPayload(BaseModel)] *)
Record CountPayload := mkPayload {
  counter_name : string;
  store_name : string;
  sub_location : string;
  item_name : string;
  condition : string;
  qty : float
}.

(** [payload.dict()]: the fields in declaration order. *)
Definition dict (p : CountPayload) : Json :=
  JDict [("counter_name", JStr (counter_name p));
         ("store_name", JStr (store_name p));
         ("sub_location", JStr (sub_location p));
         ("item_name", JStr (item_name p));
         ("condition", JStr (condition p));
         ("qty", JNum (qty p))].

(** Lookup of a key in a dictionary value. *)
Fixpoint assoc (k : string) (d : list (string * Json)) : option Json :=
  match d with
  | [] => None
  | (k', v) :: d' => if String.eqb k k' then Some v else assoc k d'
  end.

Definition field (k : string) (j : Json) : option Json :=
  match j with
  | JDict d => assoc k d
  | _ => None
  end.

(** ** Dates: [datetime.date] and [date.isoformat] *)

Record date := mkDate { year : N; month : N; day : N }.

Definition digit (n : N) : ascii := ascii_of_N (48 + n mod 10).

(** ["%02d"] and ["%04d"] on the ranges a [date] holds
    (month and day below 100, year below 10000). *)
Definition pad2 (n : N) : string :=
  String (digit (n / 10)) (String (digit n) "").

Definition pad4 (n : N) : string :=
  String (digit (n / 1000)) (String (digit (n / 100)) (pad2 n)).

(** [date.isoformat()] is ["%04d-%02d-%02d" % (year, month, day)]. *)
Definition isoformat (d : date) : string :=
  pad4 (year d) ++ "-" ++ pad2 (month d) ++ "-" ++ pad2 (day d).

(** ** Exceptions *)

(** [RuntimeError] is what [get_sheets_service] raises itself; [LibError]
    stands for an exception raised inside a library call (json, google-auth,
    googleapiclient, the operating system), of which the program only ever
    uses the text. [HTTPException] is what an endpoint raises to the HTTP
    layer. *)
Inductive Exn :=
| RuntimeError (msg : string)
| LibError (msg : string).

Inductive HTTPError :=
| HTTPException (status_code : nat) (detail : string).

(** [str(e)], as interpolated by the f-strings and by [print]. *)
Definition exn_str (e : Exn) : string :=
  match e with
  | RuntimeError msg => msg
  | LibError msg => msg
  end.

(** ** The world outside the program *)

(** Objects of the client libraries are opaque to the program; they are
    named by handles. *)
Definition Info := nat.
Definition Credentials := nat.
Definition Service := nat.

(** A library call either raises, with the text of its exception, or
    returns. *)
Definition outcome (A : Type) : Type := string + A.

Record World := mkWorld {
  (* json.loads(text) *)
  json_loads : string -> outcome Info;
  (* service_account.Credentials.from_service_account_info(info, scopes) *)
  from_service_account_info : Info -> list string -> outcome Credentials;
  (* service_account.Credentials.from_service_account_file(path, scopes) *)
  from_service_account_file : string -> list string -> outcome Credentials;
  (* __file__ *)
  module_file : string;
  (* os.path.isabs, os.path.join, os.path.dirname, os.path.exists *)
  path_isabs : string -> bool;
  path_join : string -> string -> string;
  path_dirname : string -> string;
  path_exists : string -> bool;
  (* build(serviceName, version, credentials=creds) *)
  build : string -> string -> Credentials -> outcome Service;
  (* service.spreadsheets().values().get(spreadsheetId, range).execute(),
     followed by resp.get("values"): the rows, when the key is there *)
  values_get :
    Service -> option string -> string -> outcome (option (list (list string)));
  (* service.spreadsheets().values()
       .append(spreadsheetId, range, valueInputOption, body).execute() *)
  values_append :
    Service -> option string -> string -> string -> Json -> outcome unit;
  (* date.today() *)
  date_today : date
}.

(** The calls a handler makes, in the order it makes them. *)
Inductive Event :=
| Call_get_sheets_service
| Call_json_loads (text : string)
| Call_from_service_account_info (info : Info) (scopes : list string)
| Call_from_service_account_file (path : string) (scopes : list string)
| Call_path_exists (path : string)
| Call_build (serviceName version : string) (creds : Credentials)
| Call_values_get (svc : Service) (spreadsheetId : option string)
    (range : string)
| Call_values_append (svc : Service) (spreadsheetId : option string)
    (range valueInputOption : string) (body : Json)
| Call_date_today
| Call_print (line : string).

(** ** Computations *)

Record Env := mkEnv { config : Config; world : World }.

(** A computation reads the environment and yields the events it caused
    together with an exception of type [E] or a value of type [A]. *)
Definition M (E A : Type) : Type := Env -> (E + A) * list Event.

Definition ret {E A} (a : A) : M E A := fun _ => (inr a, []).

Definition raise {E A} (e : E) : M E A := fun _ => (inl e, []).

Definition bind {E A B} (m : M E A) (f : A -> M E B) : M E B :=
  fun env =>
    match m env with
    | (inl e, t) => (inl e, t)
    | (inr a, t) => let (r, t') := f a env in (r, (t ++ t')%list)
    end.

(** [try: m  except Exception as e: h e] *)
Definition try_except {E E' A} (m : M E A) (h : E -> M E' A) : M E' A :=
  fun env =>
    match m env with
    | (inl e, t) => let (r, t') := h e env in (r, (t ++ t')%list)
    | (inr a, t) => (inr a, t)
    end.

Definition ask {E} : M E Env := fun env => (inr env, []).

Definition emit {E} (ev : Event) : M E unit := fun _ => (inr tt, [ev]).

(** A library call: recorded, then its outcome. *)
Definition call {A} (ev : Event) (o : outcome A) : M Exn A :=
  fun _ =>
    match o with
    | inl msg => (inl (LibError msg), [ev])
    | inr a => (inr a, [ev])
    end.

Notation "x <- m ;; k" := (bind m (fun x => k))
  (at level 61, m at next level, right associativity).
Notation "m ;;; k" := (bind m (fun _ => k))
  (at level 61, right associativity).

Definition result {E A} (m : M E A) (env : Env) : E + A := fst (m env).
Definition trace {E A} (m : M E A) (env : Env) : list Event := snd (m env).

(** A library call on the world of the environment. *)
Definition call_world {A} (ev : Event) (f : World -> outcome A) : M Exn A :=
  env <- ask ;; call ev (f (world env)).

(** ** [str.strip] *)

(** Texts are UTF-8, as string literals are. [str.strip()] removes from both
    ends the characters for which [str.isspace] holds: U+0009-U+000D,
    U+001C-U+0020, U+0085, U+00A0, U+1680, U+2000-U+200A, U+2028, U+2029,
    U+202F, U+205F and U+3000. The three predicates below recognise their
    encodings of one, two and three bytes. *)
Definition space1 (a : ascii) : bool :=
  let n := nat_of_ascii a in
  (((9 <=? n) && (n <=? 13)) || ((28 <=? n) && (n <=? 32)))%nat.

Definition space2 (a b : ascii) : bool :=
  ((nat_of_ascii a =? 194) &&
   ((nat_of_ascii b =? 133) || (nat_of_ascii b =? 160)))%nat.

Definition space3 (a b c : ascii) : bool :=
  let x := nat_of_ascii a in
  let y := nat_of_ascii b in
  let z := nat_of_ascii c in
  (((x =? 225) && (y =? 154) && (z =? 128))
   || ((x =? 226) && (y =? 128)
       && (((128 <=? z) && (z <=? 138)) || (z =? 168) || (z =? 169)
           || (z =? 175)))
   || ((x =? 226) && (y =? 129) && (z =? 159))
   || ((x =? 227) && (y =? 128) && (z =? 128)))%nat.

Fixpoint lstrip (s : string) : string :=
  match s with
  | EmptyString => EmptyString
  | String a s1 =>
      if space1 a then lstrip s1 else
      match s1 with
      | EmptyString => s
      | String b s2 =>
          if space2 a b then lstrip s2 else
          match s2 with
          | EmptyString => s
          | String c s3 => if space3 a b c then lstrip s3 else s
          end
      end
  end.

(** The same on a text read backwards: the last byte comes first. *)
Fixpoint lstrip_backwards (s : string) : string :=
  match s with
  | EmptyString => EmptyString
  | String c s1 =>
      if space1 c then lstrip_backwards s1 else
      match s1 with
      | EmptyString => s
      | String b s2 =>
          if space2 b c then lstrip_backwards s2 else
          match s2 with
          | EmptyString => s
          | String a s3 => if space3 a b c then lstrip_backwards s3 else s
          end
      end
  end.

Definition backwards (s : string) : string :=
  string_of_list_ascii (rev (list_ascii_of_string s)).

Definition rstrip (s : string) : string :=
  backwards (lstrip_backwards (backwards s)).

Definition strip (s : string) : string := rstrip (lstrip s).

(** Truth value of a [str]: the empty text is false. *)
Definition nonempty (s : string) : bool :=
  match s with
  | EmptyString => false
  | String _ _ => true
  end.

(** ** [get_sheets_service] (lines 51-87) *)

(** Lines 73-75: a relative key-file path is taken from the directory of
    the module. *)
Definition sa_path_of (w : World) (file : string) : string :=
  if path_isabs w file then file
  else path_join w (path_dirname w (module_file w)) file.

Definition get_sheets_service : M Exn Service :=
  emit Call_get_sheets_service ;;;
  env <- ask ;;
  let cfg := config env in
  let w := world env in
  if negb (truthy (SHEET_ID cfg)) then
    raise (RuntimeError "SHEET_ID env var is not set")
  else
    creds <-
      (if truthy (SERVICE_ACCOUNT_JSON cfg) then
         let text := text_of (SERVICE_ACCOUNT_JSON cfg) in
         try_except
           (info <- call_world (Call_json_loads text)
                      (fun w => json_loads w text) ;;
            call_world (Call_from_service_account_info info SCOPES)
              (fun w => from_service_account_info w info SCOPES))
           (fun e =>
              raise (RuntimeError
                       ("Failed to load SERVICE_ACCOUNT_JSON: " ++ exn_str e)))
       else if truthy (SERVICE_FILE cfg) then
         let file := text_of (SERVICE_FILE cfg) in
         let sa_path := sa_path_of w file in
         emit (Call_path_exists sa_path) ;;;
         if negb (path_exists w sa_path) then
           raise (RuntimeError ("Service account file not found: " ++ sa_path))
         else
           call_world (Call_from_service_account_file sa_path SCOPES)
             (fun w => from_service_account_file w sa_path SCOPES)
       else
         raise (RuntimeError "No service account credentials configured.")) ;;
    call_world (Call_build "sheets" "v4" creds)
      (fun w => build w "sheets" "v4" creds).

(** ** Endpoints *)

(** [GET /health] (lines 99-102) *)
Definition health : M HTTPError Json :=
  ret (JDict [("status", JStr "running")]).

(** [[row[0] for row in values if row and row[0].strip()]] *)
Fixpoint item_names (values : list (list string)) : list string :=
  match values with
  | [] => []
  | row :: rest =>
      match row with
      | [] => item_names rest
      | cell :: _ =>
          if nonempty (strip cell) then cell :: item_names rest
          else item_names rest
      end
  end.

(** [resp.get("values", [])] *)
Definition values_or_empty (resp : option (list (list string)))
  : list (list string) :=
  match resp with
  | Some values => values
  | None => []
  end.

Definition items_response (items : list string) : Json :=
  JDict [("items", JList (map JStr items))].

(** [GET /items] (lines 106-122) *)
Definition get_items : M HTTPError Json :=
  try_except
    (service <- get_sheets_service ;;
     env <- ask ;;
     let sheet := SHEET_ID (config env) in
     resp <- call_world (Call_values_get service sheet ITEM_MASTER_RANGE)
               (fun w => values_get w service sheet ITEM_MASTER_RANGE) ;;
     let values := values_or_empty resp in
     let items := item_names values in
     ret (items_response items))
    (fun e =>
       emit (Call_print
               ("Error loading items from Item_Master: " ++ exn_str e)) ;;;
       ret (items_response [])).

(** [x_shared_pin != SHARED_PIN], on two [Optional[str]]. *)
Definition differs (a b : option string) : bool :=
  match a, b with
  | Some x, Some y => negb (String.eqb x y)
  | None, None => false
  | _, _ => true
  end.

(** The row of a submission, [today] being the date text. *)
Definition row_of (payload : CountPayload) (today : string) : list Json :=
  [JStr (counter_name payload);
   JStr (store_name payload);
   JStr (sub_location payload);
   JStr today;
   JStr (item_name payload);
   JStr (condition payload);
   JNum (qty payload)].

(** [POST /submit_count] (lines 125-166) *)
Definition submit_count (payload : CountPayload)
    (x_shared_pin : option string) : M HTTPError Json :=
  env <- ask ;;
  let cfg := config env in
  (if truthy (SHARED_PIN cfg) && differs x_shared_pin (SHARED_PIN cfg)
   then raise (HTTPException 401 "Invalid PIN")
   else ret tt) ;;;
  service <-
    try_except get_sheets_service
      (fun e => raise (HTTPException 500 ("Config error: " ++ exn_str e))) ;;
  today <-
    (emit Call_date_today ;;; ret (isoformat (date_today (world env)))) ;;
  let values := JList [JList (row_of payload today)] in
  let body := JDict [("values", values)] in
  try_except
    (call_world
       (Call_values_append service (SHEET_ID cfg) (TAB_NAME ++ "!A:G")
          "USER_ENTERED" body)
       (fun w =>
          values_append w service (SHEET_ID cfg) (TAB_NAME ++ "!A:G")
            "USER_ENTERED" body))
    (fun e =>
       raise (HTTPException 500 ("Sheets append failed: " ++ exn_str e))) ;;;
  ret (JDict [("status", JStr "ok"); ("received", dict payload)]).

(** ** A stub of the world, as a test would install it *)

Definition stub_rows : list (list string) :=
  [["Widget"]; [" "]; [""]; ["Gadget"]].

(** Every library call succeeds; the date is 2024-01-15; the module lives
    in [/app]. *)
Definition stub_world : World := {|
  json_loads := fun _ => inr 1;
  from_service_account_info := fun _ _ => inr 2;
  from_service_account_file := fun _ _ => inr 3;
  module_file := "/app/stock_api.py";
  path_isabs := fun p => String.prefix "/" p;
  path_join := fun a b => a ++ "/" ++ b;
  path_dirname := fun _ => "/app";
  path_exists := fun _ => true;
  build := fun _ _ _ => inr 7;
  values_get := fun _ _ _ => inr (Some stub_rows);
  values_append := fun _ _ _ _ _ => inr tt;
  date_today := mkDate 2024 1 15
|}.

Definition stub_config : Config := {|
  SHEET_ID := Some "sheet-1";
  SERVICE_ACCOUNT_JSON := Some "{}";
  SERVICE_FILE := None;
  SHARED_PIN := None
|}.

Definition stub_payload : CountPayload :=
  mkPayload "A" "B" "C" "D" "E" three_and_a_half.

Definition with_pin (pin : option string) (cfg : Config) : Config :=
  mkConfig (SHEET_ID cfg) (SERVICE_ACCOUNT_JSON cfg) (SERVICE_FILE cfg) pin.

Definition with_rows (rows : list (list string)) (w : World) : World :=
  mkWorld (json_loads w) (from_service_account_info w)
    (from_service_account_file w) (module_file w) (path_isabs w)
    (path_join w) (path_dirname w) (path_exists w) (build w)
    (fun _ _ _ => inr (Some rows)) (values_append w) (date_today w).

Definition with_failing_get (msg : string) (w : World) : World :=
  mkWorld (json_loads w) (from_service_account_info w)
    (from_service_account_file w) (module_file w) (path_isabs w)
    (path_join w) (path_dirname w) (path_exists w) (build w)
    (fun _ _ _ => inl msg) (values_append w) (date_today w).

Definition with_failing_append (msg : string) (w : World) : World :=
  mkWorld (json_loads w) (from_service_account_info w)
    (from_service_account_file w) (module_file w) (path_isabs w)
    (path_join w) (path_dirname w) (path_exists w) (build w)
    (values_get w) (fun _ _ _ _ _ => inl msg) (date_today w).

(** The parsed document is not a service-account key: building the
    credentials raises. *)
Definition with_rejected_info (msg : string) (w : World) : World :=
  mkWorld (json_loads w) (fun _ _ => inl msg)
    (from_service_account_file w) (module_file w) (path_isabs w)
    (path_join w) (path_dirname w) (path_exists w) (build w)
    (values_get w) (values_append w) (date_today w).

Definition with_file (file : option string) (cfg : Config) : Config :=
  mkConfig (SHEET_ID cfg) (SERVICE_ACCOUNT_JSON cfg) file (SHARED_PIN cfg).

(** Concrete environments. *)
Definition stub_env : Env := mkEnv stub_config stub_world.

(** The shared PIN is set in the environment, to the empty text. *)
Definition empty_pin_env : Env :=
  mkEnv (with_pin (Some "") stub_config) stub_world.

Definition pin_env : Env :=
  mkEnv (with_pin (Some "1234") stub_config) stub_world.

(** The inline credential is the text [{}]: it parses, and it is not a
    service-account key. *)
Definition rejected_info_env : Env :=
  mkEnv stub_config
    (with_rejected_info
       "Service account info was not in the expected format, missing fields client_email, token_uri."
       stub_world).

(** A cell of the item master with spaces around the name. *)
Definition untrimmed_rows : list (list string) := [[" Widget "]].

Definition untrimmed_env : Env :=
  mkEnv stub_config (with_rows untrimmed_rows stub_world).

Definition failing_get_env : Env :=
  mkEnv stub_config (with_failing_get "HttpError 403" stub_world).

Definition failing_append_env : Env :=
  mkEnv stub_config (with_failing_append "HttpError 429" stub_world).

Definition no_sheet_env : Env :=
  mkEnv (mkConfig None (Some "{}") None None) stub_world.

Definition key_file_env : Env :=
  mkEnv (mkConfig (Some "sheet-1") None (Some "key.json") None) stub_world.

(** ** Vocabulary of the statements *)

(** The PIN check of line 132 rejects the request. *)
Definition pin_rejected (cfg : Config) (x_shared_pin : option string) : bool :=
  truthy (SHARED_PIN cfg) && differs x_shared_pin (SHARED_PIN cfg).

Definition is_append (ev : Event) : bool :=
  match ev with
  | Call_values_append _ _ _ _ _ => true
  | _ => false
  end.

(** The remote append calls of a trace. *)
Definition append_calls (t : list Event) : list Event := filter is_append t.

(** [sub] occurs in [s]. *)
Definition includes (s sub : string) : Prop :=
  exists before after, s = before ++ sub ++ after.

(** A configuration error is a [RuntimeError] of [get_sheets_service]. *)
Definition configuration_error {A} (r : Exn + A) : Prop :=
  exists msg, r = inl (RuntimeError msg).

(** The inline credential cannot be loaded: [json.loads] raises, or the
    parsed document is refused by [from_service_account_info]. *)
Definition inline_unloadable (w : World) (text : string) : bool :=
  match json_loads w text with
  | inl _ => true
  | inr info =>
      match from_service_account_info w info SCOPES with
      | inl _ => true
      | inr _ => false
      end
  end.

(** The causes of a configuration error, as the code has them. A variable
    counts as absent when it is unset or empty. *)
Definition configuration_fault (cfg : Config) (w : World) : bool :=
  negb (truthy (SHEET_ID cfg))
  || (if truthy (SERVICE_ACCOUNT_JSON cfg) then
        inline_unloadable w (text_of (SERVICE_ACCOUNT_JSON cfg))
      else if truthy (SERVICE_FILE cfg) then
        negb (path_exists w (sa_path_of w (text_of (SERVICE_FILE cfg))))
      else true).

(** The causes of a configuration error in the words of the specification:
    the spreadsheet identifier is unset, neither credential source is
    configured, the configured key-file path does not exist, or the inline
    credential text fails to parse. *)
Definition listed_causes (cfg : Config) (w : World) : Prop :=
  SHEET_ID cfg = None
  \/ (SERVICE_ACCOUNT_JSON cfg = None /\ SERVICE_FILE cfg = None)
  \/ (exists file, SERVICE_FILE cfg = Some file
                   /\ path_exists w (sa_path_of w file) = false)
  \/ (exists text msg, SERVICE_ACCOUNT_JSON cfg = Some text
                       /\ json_loads w text = inl msg).

(** The test of the comprehension on a first cell. *)
Definition kept (cell : string) : bool := nonempty (strip cell).

(** The item list in the words of the specification: the first-column
    values, trimmed, without the blank ones. *)
Fixpoint first_column (values : list (list string)) : list string :=
  match values with
  | [] => []
  | [] :: rest => first_column rest
  | (cell :: _) :: rest => cell :: first_column rest
  end.

Definition trimmed_nonblank_first_column (values : list (list string))
  : list string :=
  filter nonempty (map strip (first_column values)).

(** The body and the event of the append call of [submit_count], and its
    answer. *)
Definition append_body (payload : CountPayload) (w : World) : Json :=
  JDict [("values",
          JList [JList (row_of payload (isoformat (date_today w)))])].

Definition append_event (svc : Service) (payload : CountPayload) (env : Env)
  : Event :=
  Call_values_append svc (SHEET_ID (config env)) (TAB_NAME ++ "!A:G")
    "USER_ENTERED" (append_body payload (world env)).

Definition ok_response (payload : CountPayload) : Json :=
  JDict [("status", JStr "ok"); ("received", dict payload)].

(** The shape [DDDD-DD-DD] of an ISO calendar date, and its reading. *)
Definition is_digit (a : ascii) : bool :=
  ((48 <=? N_of_ascii a) && (N_of_ascii a <=? 57))%N.

Definition digit_value (a : ascii) : N := N_of_ascii a - 48.

Definition iso_shape (s : string) : bool :=
  match s with
  | String y1 (String y2 (String y3 (String y4 (String h1
      (String m1 (String m2 (String h2 (String d1 (String d2 "")))))))))
    => is_digit y1 && is_digit y2 && is_digit y3 && is_digit y4
       && Ascii.eqb h1 "-" && is_digit m1 && is_digit m2
       && Ascii.eqb h2 "-" && is_digit d1 && is_digit d2
  | _ => false
  end.

Definition read_iso (s : string) : option date :=
  match s with
  | String y1 (String y2 (String y3 (String y4 (String _
      (String m1 (String m2 (String _ (String d1 (String d2 "")))))))))
    => Some (mkDate
               (1000 * digit_value y1 + 100 * digit_value y2
                + 10 * digit_value y3 + digit_value y4)
               (10 * digit_value m1 + digit_value m2)
               (10 * digit_value d1 + digit_value d2))
  | _ => None
  end.

(** The ranges of [datetime.date]: MINYEAR..MAXYEAR, months and days. *)
Definition date_in_range (d : date) : Prop :=
  (1 <= year d <= 9999 /\ 1 <= month d <= 12 /\ 1 <= day d <= 31)%N.

(** ** Kinds of calls *)

Definition is_entry (ev : Event) : bool :=
  match ev with
  | Call_get_sheets_service => true
  | _ => false
  end.

(** Calls made for the inline credential (lines 64-67). *)
Definition is_inline_call (ev : Event) : bool :=
  match ev with
  | Call_json_loads _ => true
  | Call_from_service_account_info _ _ => true
  | _ => false
  end.

(** Calls made for the key file (lines 77-82). *)
Definition is_key_file_call (ev : Event) : bool :=
  match ev with
  | Call_path_exists _ => true
  | Call_from_service_account_file _ _ => true
  | _ => false
  end.

Definition is_build (ev : Event) : bool :=
  match ev with
  | Call_build _ _ _ => true
  | _ => false
  end.

Definition is_read (ev : Event) : bool :=
  match ev with
  | Call_values_get _ _ _ => true
  | _ => false
  end.

Definition is_print (ev : Event) : bool :=
  match ev with
  | Call_print _ => true
  | _ => false
  end.

Definition is_clock (ev : Event) : bool :=
  match ev with
  | Call_date_today => true
  | _ => false
  end.

(** ** More stubs of the world *)




(** The range holds no data: the response has no "values" key. *)
Definition with_no_values (w : World) : World :=
  mkWorld (json_loads w) (from_service_account_info w)
    (from_service_account_file w) (module_file w) (path_isabs w)
    (path_join w) (path_dirname w) (path_exists w) (build w)
    (fun _ _ _ => inr None) (values_append w) (date_today w).




Definition no_values_env : Env := mkEnv stub_config (with_no_values stub_world).

(** The cells of a row other than the date, which is the fourth. *)
Definition without_date (row : list Json) : list Json :=
  (firstn 3 row ++ skipn 4 row)%list.

(** ** Tactics *)

(** Unfolding of the monad, tidying of traces, case analysis on the calls. *)
Ltac run_handler :=
  cbv beta iota zeta
      delta [bind try_except ask ret raise emit call call_world result trace].

Ltac tidy_trace :=
  cbn [app]; rewrite ?app_nil_r, <- ?app_assoc; cbn [app]; try reflexivity.

Ltac split_run :=
  repeat match goal with
         | |- context [match ?o with inl _ => _ | inr _ => _ end] =>
             destruct o eqn:?
         | |- context [if ?b then _ else _] => destruct b eqn:?
         end.

(** Case analysis on a run of [get_sheets_service], from the equation
    [run] of its runs. *)
Ltac cases_of run :=
  unfold trace, result; rewrite run;
  cbn [config world]; cbv zeta; split_run; cbn [fst snd app negb].

(** Membership in a concrete trace, event by event. *)
Ltac trace_member H :=
  cbn [In app] in H;
  repeat match type of H with
         | _ \/ _ => destruct H as [H | H]
         end;
  try discriminate H; try contradiction.

(** * Properties *)

(** ** Dates *)

Section Dates.
Local Open Scope N_scope.

(** Division by ten, with quotient and remainder named. *)
Lemma div10 (n : N) :
  exists q r, n / 10 = q /\ n mod 10 = r /\ n = 10 * q + r /\ r < 10.
Proof.
  exists (n / 10), (n mod 10). repeat split.
  - apply N.div_mod'.
  - apply N.mod_upper_bound. discriminate.
Qed.

Lemma digit_code (n : N) : N_of_ascii (digit n) = 48 + n mod 10.
Proof.
  unfold digit. apply N_ascii_embedding.
  destruct (div10 n) as (q & r & _ & -> & _ & B). lia.
Qed.

Lemma digit_is_digit (n : N) : is_digit (digit n) = true.
Proof.
  unfold is_digit. rewrite digit_code.
  destruct (div10 n) as (q & r & _ & -> & _ & B).
  apply andb_true_intro; split; apply N.leb_le; lia.
Qed.

Lemma digit_value_digit (n : N) : digit_value (digit n) = n mod 10.
Proof.
  unfold digit_value. rewrite digit_code.
  generalize (n mod 10). intros r. lia.
Qed.

Lemma isoformat_unfold (d : date) :
  isoformat d =
  String (digit (year d / 1000)) (String (digit (year d / 100))
    (String (digit (year d / 10)) (String (digit (year d))
      (String "-" (String (digit (month d / 10)) (String (digit (month d))
        (String "-" (String (digit (day d / 10))
          (String (digit (day d)) EmptyString))))))))).
Proof. reflexivity. Qed.

Lemma isoformat_shape (d : date) : iso_shape (isoformat d) = true.
Proof.
  rewrite isoformat_unfold. unfold iso_shape.
  rewrite !digit_is_digit. reflexivity.
Qed.

Lemma read_two_digits (n : N) :
  n < 100 -> 10 * ((n / 10) mod 10) + n mod 10 = n.
Proof.
  intros H.
  destruct (div10 n) as (q1 & r0 & -> & -> & E0 & B0).
  destruct (div10 q1) as (q2 & r1 & _ & -> & E1 & B1).
  lia.
Qed.

Lemma read_four_digits (n : N) :
  n < 10000 ->
  1000 * ((n / 1000) mod 10) + 100 * ((n / 100) mod 10)
  + 10 * ((n / 10) mod 10) + n mod 10 = n.
Proof.
  intros H.
  replace (n / 1000) with (n / 10 / 10 / 10)
    by (rewrite !N.Div0.div_div; reflexivity).
  replace (n / 100) with (n / 10 / 10)
    by (rewrite !N.Div0.div_div; reflexivity).
  destruct (div10 n) as (q1 & r0 & -> & -> & E0 & B0).
  destruct (div10 q1) as (q2 & r1 & -> & -> & E1 & B1).
  destruct (div10 q2) as (q3 & r2 & -> & -> & E2 & B2).
  destruct (div10 q3) as (q4 & r3 & _ & -> & E3 & B3).
  lia.
Qed.

Lemma read_iso_isoformat (d : date) :
  date_in_range d -> read_iso (isoformat d) = Some d.
Proof.
  intros (Hy & Hm & Hd). rewrite isoformat_unfold. unfold read_iso.
  rewrite !digit_value_digit.
  rewrite read_four_digits, !read_two_digits by lia.
  destruct d; reflexivity.
Qed.
End Dates.

(** ** Symbolic execution of the handlers *)

Lemma submit_count_rejected payload hdr env :
  pin_rejected (config env) hdr = true ->
  submit_count payload hdr env = (inl (HTTPException 401 "Invalid PIN"), []).
Proof.
  unfold pin_rejected, submit_count. run_handler.
  intros ->. reflexivity.
Qed.

Lemma submit_count_passed payload hdr env :
  pin_rejected (config env) hdr = false ->
  submit_count payload hdr env =
  match get_sheets_service env with
  | (inl e, t) =>
      (inl (HTTPException 500 ("Config error: " ++ exn_str e)), t)
  | (inr svc, t) =>
      let t' := (t ++ [Call_date_today; append_event svc payload env])%list in
      match values_append (world env) svc (SHEET_ID (config env))
              (TAB_NAME ++ "!A:G") "USER_ENTERED"
              (append_body payload (world env)) with
      | inl msg =>
          (inl (HTTPException 500 ("Sheets append failed: " ++ msg)), t')
      | inr _ => (inr (ok_response payload), t')
      end
  end.
Proof.
  unfold pin_rejected, submit_count. run_handler.
  intros ->.
  destruct (get_sheets_service env) as [[e | svc] t]; tidy_trace.
  unfold append_event, append_body.
  destruct (values_append _ _ _ _ _ _) as [msg | []]; tidy_trace.
Qed.

Lemma get_items_run env :
  get_items env =
  match get_sheets_service env with
  | (inl e, t) =>
      (inr (items_response []),
       (t ++ [Call_print
                ("Error loading items from Item_Master: " ++ exn_str e)])%list)
  | (inr svc, t) =>
      let ev :=
        Call_values_get svc (SHEET_ID (config env)) ITEM_MASTER_RANGE in
      match values_get (world env) svc (SHEET_ID (config env))
              ITEM_MASTER_RANGE with
      | inl msg =>
          (inr (items_response []),
           (t ++ [ev; Call_print
                        ("Error loading items from Item_Master: " ++ msg)])
           %list)
      | inr resp =>
          (inr (items_response (item_names (values_or_empty resp))),
           (t ++ [ev])%list)
      end
  end.
Proof.
  unfold get_items. run_handler.
  destruct (get_sheets_service env) as [[e | svc] t]; tidy_trace.
  destruct (values_get _ _ _ _) as [msg | resp]; tidy_trace.
Qed.

(** ** The credential loader *)

Lemma get_sheets_service_run env :
  get_sheets_service env =
  let cfg := config env in
  let w := world env in
  let enter := Call_get_sheets_service in
  if negb (truthy (SHEET_ID cfg)) then
    (inl (RuntimeError "SHEET_ID env var is not set"), [enter])
  else if truthy (SERVICE_ACCOUNT_JSON cfg) then
    let text := text_of (SERVICE_ACCOUNT_JSON cfg) in
    match json_loads w text with
    | inl msg =>
        (inl (RuntimeError ("Failed to load SERVICE_ACCOUNT_JSON: " ++ msg)),
         [enter; Call_json_loads text])
    | inr info =>
        let t := [enter; Call_json_loads text;
                  Call_from_service_account_info info SCOPES] in
        match from_service_account_info w info SCOPES with
        | inl msg =>
            (inl (RuntimeError
                    ("Failed to load SERVICE_ACCOUNT_JSON: " ++ msg)), t)
        | inr creds =>
            match build w "sheets" "v4" creds with
            | inl msg =>
                (inl (LibError msg),
                 (t ++ [Call_build "sheets" "v4" creds])%list)
            | inr svc =>
                (inr svc, (t ++ [Call_build "sheets" "v4" creds])%list)
            end
        end
    end
  else if truthy (SERVICE_FILE cfg) then
    let sa_path := sa_path_of w (text_of (SERVICE_FILE cfg)) in
    if negb (path_exists w sa_path) then
      (inl (RuntimeError ("Service account file not found: " ++ sa_path)),
       [enter; Call_path_exists sa_path])
    else
      let t := [enter; Call_path_exists sa_path;
                Call_from_service_account_file sa_path SCOPES] in
      match from_service_account_file w sa_path SCOPES with
      | inl msg => (inl (LibError msg), t)
      | inr creds =>
          match build w "sheets" "v4" creds with
          | inl msg =>
              (inl (LibError msg),
               (t ++ [Call_build "sheets" "v4" creds])%list)
          | inr svc =>
              (inr svc, (t ++ [Call_build "sheets" "v4" creds])%list)
          end
      end
  else
    (inl (RuntimeError "No service account credentials configured."),
     [enter]).
Proof.
  unfold get_sheets_service. run_handler.
  destruct (truthy (SHEET_ID (config env))); [|reflexivity].
  cbn [negb].
  destruct (truthy (SERVICE_ACCOUNT_JSON (config env))).
  - destruct (json_loads _ _) as [msg | info]; [reflexivity|].
    destruct (from_service_account_info _ _ _) as [msg | creds];
      [reflexivity|].
    destruct (build _ _ _ _) as [msg | svc]; reflexivity.
  - destruct (truthy (SERVICE_FILE (config env))); [|reflexivity].
    destruct (path_exists _ _); [|reflexivity].
    cbn [negb].
    destruct (from_service_account_file _ _ _) as [msg | creds];
      [reflexivity|].
    destruct (build _ _ _ _) as [msg | svc]; reflexivity.
Qed.

(** The loader calls the credential libraries only, never the sheet. *)
Lemma get_sheets_service_no_append env :
  append_calls (trace get_sheets_service env) = [].
Proof.
  unfold trace. rewrite get_sheets_service_run. cbv zeta.
  repeat match goal with
         | |- context [if ?b then _ else _] => destruct b
         | |- context [match ?o with inl _ => _ | inr _ => _ end] =>
             destruct o
         end; reflexivity.
Qed.

Lemma get_sheets_service_ignores_pin pin cfg w :
  get_sheets_service (mkEnv (with_pin pin cfg) w)
  = get_sheets_service (mkEnv cfg w).
Proof. rewrite !get_sheets_service_run. reflexivity. Qed.

(** C5, as the code has it. [get_sheets_service] raises a configuration
    error (a [RuntimeError]) exactly when SHEET_ID is unset or empty; or the
    inline JSON credential is present and either fails to parse or is
    refused when the credentials are built from it; or the inline credential
    is absent (unset or empty) and so is the key-file path; or the inline
    credential is absent and the key-file path, taken from the module's
    directory when relative, does not exist. The order is fixed: with an
    inline credential present the key-file path plays no part, and a
    service obtained came from the inline credential; the key file is
    loaded only when the inline credential is absent. *)
Theorem get_sheets_service_configuration_error (cfg : Config) (w : World) :
  (configuration_error (result get_sheets_service (mkEnv cfg w))
   <-> configuration_fault cfg w = true)
  /\ (truthy (SERVICE_ACCOUNT_JSON cfg) = true ->
      forall file,
        get_sheets_service (mkEnv (with_file file cfg) w)
        = get_sheets_service (mkEnv cfg w))
  /\ (forall svc,
        result get_sheets_service (mkEnv cfg w) = inr svc ->
        if truthy (SERVICE_ACCOUNT_JSON cfg) then
          exists info creds,
            json_loads w (text_of (SERVICE_ACCOUNT_JSON cfg)) = inr info
            /\ from_service_account_info w info SCOPES = inr creds
            /\ build w "sheets" "v4" creds = inr svc
        else
          truthy (SERVICE_FILE cfg) = true
          /\ exists creds,
               from_service_account_file w
                 (sa_path_of w (text_of (SERVICE_FILE cfg))) SCOPES
               = inr creds
               /\ build w "sheets" "v4" creds = inr svc).
Proof.
  split; [|split].
  - unfold configuration_error, configuration_fault, inline_unloadable,
      result.
    rewrite get_sheets_service_run. cbn [config world]. cbv zeta.
    split.
    + intros [msg H]. revert H. split_run; cbn [fst negb orb];
        try reflexivity; discriminate.
    + split_run; cbn [fst negb orb]; intros H;
        try discriminate H; eexists; reflexivity.
  - intros J file. rewrite !get_sheets_service_run.
    cbn [config world with_file SHEET_ID SERVICE_ACCOUNT_JSON SERVICE_FILE].
    cbv zeta. rewrite J. reflexivity.
  - intros svc. unfold result. rewrite get_sheets_service_run.
    cbn [config world]. cbv zeta.
    destruct (truthy (SHEET_ID cfg)); cbn [negb fst]; [|discriminate].
    destruct (truthy (SERVICE_ACCOUNT_JSON cfg)).
    + destruct (json_loads _ _) as [msg | info]; [discriminate|].
      destruct (from_service_account_info _ _ _) as [msg | creds] eqn:F;
        [discriminate|].
      destruct (build _ _ _ _) as [msg | svc'] eqn:B; [discriminate|].
      cbn [fst]. intros [= <-]. exists info, creds. auto.
    + destruct (truthy (SERVICE_FILE cfg)); [|discriminate].
      destruct (path_exists _ _); cbn [negb fst]; [|discriminate].
      destruct (from_service_account_file _ _ _) as [msg | creds] eqn:F;
        [discriminate|].
      destruct (build _ _ _ _) as [msg | svc'] eqn:B; [discriminate|].
      cbn [fst]. intros [= <-]. split; [reflexivity|]. exists creds. auto.
Qed.

(** Witness of C5: the stub configuration yields a service through the
    inline credential, whatever the key-file path. *)
Lemma get_sheets_service_configuration_error_witness :
  (configuration_error (result get_sheets_service no_sheet_env)
   <-> configuration_fault (config no_sheet_env) (world no_sheet_env) = true)
  /\ get_sheets_service
       (mkEnv (with_file (Some "missing.json") stub_config) stub_world)
     = get_sheets_service stub_env
  /\ exists info creds,
       json_loads stub_world "{}" = inr info
       /\ from_service_account_info stub_world info SCOPES = inr creds
       /\ build stub_world "sheets" "v4" creds = inr 7.
Proof.
  destruct (get_sheets_service_configuration_error
              (config no_sheet_env) (world no_sheet_env)) as (H1 & _ & _).
  destruct (get_sheets_service_configuration_error stub_config stub_world)
    as (_ & H2 & H3).
  split; [exact H1|].
  split; [exact (H2 eq_refl (Some "missing.json"))|].
  exact (H3 7 eq_refl).
Defined.

(** C5 as stated fails: the inline credential [{}] parses, the sheet
    identifier is set and no key file is configured, yet the loader raises
    a configuration error, because the parsed document is refused when the
    credentials are built from it. *)
Lemma get_sheets_service_error_outside_listed_causes :
  configuration_error (result get_sheets_service rejected_info_env)
  /\ ~ listed_causes (config rejected_info_env) (world rejected_info_env).
Proof.
  split.
  - eexists. reflexivity.
  - unfold listed_causes. cbn.
    intros [H | [[H _] | [(file & H & _) | (text & msg & _ & H)]]];
      discriminate H.
Qed.

(** ** The PIN check *)

Lemma truthy_nonempty (pin : string) : pin <> "" -> truthy (Some pin) = true.
Proof. destruct pin; [congruence | reflexivity]. Qed.

Lemma differs_spec (hdr : option string) (pin : string) :
  differs hdr (Some pin) = true <-> hdr <> Some pin.
Proof.
  destruct hdr as [h |]; cbn.
  - rewrite negb_true_iff, String.eqb_neq. split; congruence.
  - split; [discriminate | reflexivity].
Qed.

Lemma pin_rejected_spec (cfg : Config) (hdr : option string) :
  pin_rejected cfg hdr = true
  <-> exists pin, SHARED_PIN cfg = Some pin /\ pin <> "" /\ hdr <> Some pin.
Proof.
  unfold pin_rejected. split.
  - intros H. apply andb_prop in H as [T D].
    destruct (SHARED_PIN cfg) as [pin |]; [|discriminate T].
    exists pin. repeat split.
    + intros ->. discriminate T.
    + apply differs_spec, D.
  - intros (pin & -> & N & D).
    rewrite (truthy_nonempty pin N). apply differs_spec, D.
Qed.

Lemma pin_absent_passes (cfg : Config) (hdr : option string) :
  truthy (SHARED_PIN cfg) = false -> pin_rejected cfg hdr = false.
Proof. unfold pin_rejected. intros ->. reflexivity. Qed.

(** ** [/submit_count] *)

(** C1, as the code has it. When the shared secret is configured as a
    non-empty text and the X-Shared-Pin header is absent or differs from it,
    [/submit_count] fails with HTTP 401, detail "Invalid PIN", and makes no
    call at all: no credential resolution and no remote append. *)
Theorem submit_count_invalid_pin (payload : CountPayload)
    (hdr : option string) (env : Env) (pin : string) :
  SHARED_PIN (config env) = Some pin ->
  pin <> "" ->
  hdr <> Some pin ->
  submit_count payload hdr env = (inl (HTTPException 401 "Invalid PIN"), []).
Proof.
  intros P N D. apply submit_count_rejected, pin_rejected_spec.
  exists pin. auto.
Qed.

Lemma submit_count_invalid_pin_witness :
  SHARED_PIN (config pin_env) = Some "1234"
  /\ "1234" <> ""
  /\ Some "0000" <> Some "1234"
  /\ submit_count stub_payload (Some "0000") pin_env
     = (inl (HTTPException 401 "Invalid PIN"), []).
Proof.
  assert (N : "1234" <> "") by discriminate.
  assert (D : Some "0000" <> Some "1234") by discriminate.
  split; [reflexivity|]. split; [exact N|]. split; [exact D|].
  exact (submit_count_invalid_pin stub_payload (Some "0000") pin_env "1234"
           eq_refl N D).
Defined.

(** C1 as stated fails: with the shared secret configured as the empty
    text, a header that differs from it is not refused; credentials are
    resolved and the row is appended. *)
Lemma submit_count_empty_pin_not_checked :
  SHARED_PIN (config empty_pin_env) = Some ""
  /\ Some "1234" <> SHARED_PIN (config empty_pin_env)
  /\ result (submit_count stub_payload (Some "1234")) empty_pin_env
     = inr (ok_response stub_payload)
  /\ In Call_get_sheets_service
       (trace (submit_count stub_payload (Some "1234")) empty_pin_env)
  /\ append_calls
       (trace (submit_count stub_payload (Some "1234")) empty_pin_env)
     = [append_event 7 stub_payload empty_pin_env].
Proof.
  split; [reflexivity|]. split; [discriminate|]. split; [reflexivity|].
  split; [left; reflexivity | reflexivity].
Qed.

(** C2. A submission that passes the PIN check, with credentials resolved
    to a service, causes exactly one append call: on that service, for the
    configured sheet, to the range Input_Counts!A:G, with USER_ENTERED
    semantics, its body holding the single row [counter_name, store_name,
    sub_location, date, item_name, condition, qty]. The date is the
    server's [date.today()] in the form YYYY-MM-DD; it does not come from
    the payload, which has no date field. *)
Theorem submit_count_appends_one_row (payload : CountPayload)
    (hdr : option string) (env : Env) (svc : Service) :
  pin_rejected (config env) hdr = false ->
  result get_sheets_service env = inr svc ->
  let today := isoformat (date_today (world env)) in
  append_calls (trace (submit_count payload hdr) env)
  = [Call_values_append svc (SHEET_ID (config env)) "Input_Counts!A:G"
       "USER_ENTERED"
       (JDict
          [("values",
            JList
              [JList
                 [JStr (counter_name payload); JStr (store_name payload);
                  JStr (sub_location payload); JStr today;
                  JStr (item_name payload); JStr (condition payload);
                  JNum (qty payload)]])])]
  /\ iso_shape today = true
  /\ (date_in_range (date_today (world env)) ->
      read_iso today = Some (date_today (world env))).
Proof.
  intros P G today. split; [|split].
  - pose proof (get_sheets_service_no_append env) as NA.
    unfold trace in *. rewrite (submit_count_passed payload hdr env P).
    unfold result in G.
    destruct (get_sheets_service env) as [[e | svc'] t]; cbn [fst snd] in *;
      [discriminate G|].
    injection G as ->. cbv zeta.
    destruct (values_append _ _ _ _ _ _) as [msg | u]; cbn [snd];
      unfold append_calls in *; rewrite filter_app, NA; reflexivity.
  - apply isoformat_shape.
  - apply read_iso_isoformat.
Qed.

(** Witness of C2: the submission of the specification, on 2024-01-15. *)
Lemma submit_count_appends_one_row_witness :
  pin_rejected (config stub_env) None = false
  /\ result get_sheets_service stub_env = inr 7
  /\ append_calls (trace (submit_count stub_payload None) stub_env)
     = [Call_values_append 7 (Some "sheet-1") "Input_Counts!A:G"
          "USER_ENTERED"
          (JDict
             [("values",
               JList
                 [JList
                    [JStr "A"; JStr "B"; JStr "C"; JStr "2024-01-15";
                     JStr "D"; JStr "E"; JNum three_and_a_half]])])].
Proof.
  split; [reflexivity|]. split; [reflexivity|].
  exact (proj1 (submit_count_appends_one_row stub_payload None stub_env 7
                  eq_refl eq_refl)).
Defined.

Lemma append_empty (s : string) : s ++ "" = s.
Proof. induction s as [| a s IH]; cbn; [|rewrite IH]; reflexivity. Qed.

Lemma includes_suffix (prefix text : string) : includes (prefix ++ text) text.
Proof. exists prefix, "". rewrite append_empty. reflexivity. Qed.

(** C6. On a request that passes the PIN check: if credential resolution
    raises [e], [/submit_count] fails with HTTP 500 and the detail
    "Config error: " followed by the text of [e]; if the service is obtained
    and the append raises, it fails with HTTP 500 and the detail
    "Sheets append failed: " followed by the text of the error. Either way
    the answer is a failure, never a success. *)
Theorem submit_count_server_errors (payload : CountPayload)
    (hdr : option string) (env : Env) :
  pin_rejected (config env) hdr = false ->
  (forall e,
     result get_sheets_service env = inl e ->
     result (submit_count payload hdr) env
     = inl (HTTPException 500 ("Config error: " ++ exn_str e))
     /\ includes ("Config error: " ++ exn_str e) (exn_str e))
  /\ (forall svc msg,
        result get_sheets_service env = inr svc ->
        values_append (world env) svc (SHEET_ID (config env))
          "Input_Counts!A:G" "USER_ENTERED" (append_body payload (world env))
        = inl msg ->
        result (submit_count payload hdr) env
        = inl (HTTPException 500 ("Sheets append failed: " ++ msg))
        /\ includes ("Sheets append failed: " ++ msg) msg).
Proof.
  intros P. unfold result. rewrite (submit_count_passed payload hdr env P).
  split.
  - intros e G. split; [|apply includes_suffix].
    destruct (get_sheets_service env) as [[e' | svc] t]; cbn [fst] in *;
      [|discriminate G].
    injection G as ->. reflexivity.
  - intros svc msg G A. split; [|apply includes_suffix].
    destruct (get_sheets_service env) as [[e | svc'] t]; cbn [fst] in *;
      [discriminate G|].
    injection G as ->. cbv zeta.
    change (TAB_NAME ++ "!A:G") with "Input_Counts!A:G".
    rewrite A. reflexivity.
Qed.

(** Witness of C6: a configuration without SHEET_ID, and a remote service
    that refuses the append. *)
Lemma submit_count_server_errors_witness :
  pin_rejected (config no_sheet_env) None = false
  /\ result get_sheets_service no_sheet_env
     = inl (RuntimeError "SHEET_ID env var is not set")
  /\ result (submit_count stub_payload None) no_sheet_env
     = inl (HTTPException 500 "Config error: SHEET_ID env var is not set")
  /\ result (submit_count stub_payload None) failing_append_env
     = inl (HTTPException 500 "Sheets append failed: HttpError 429").
Proof.
  split; [reflexivity|]. split; [reflexivity|]. split.
  - exact (proj1 (proj1 (submit_count_server_errors stub_payload None
                           no_sheet_env eq_refl)
                    (RuntimeError "SHEET_ID env var is not set") eq_refl)).
  - exact (proj1 (proj2 (submit_count_server_errors stub_payload None
                           failing_append_env eq_refl)
                    7 "HttpError 429" eq_refl eq_refl)).
Defined.

(** C7. With no shared secret configured, [/submit_count] does not look at
    the X-Shared-Pin header: its answer and its calls are the same for
    every header value, present or absent; it never answers 401; and when
    the service is obtained and the append succeeds, it succeeds. *)
Theorem submit_count_open_access (payload : CountPayload) (env : Env) :
  SHARED_PIN (config env) = None ->
  (forall h1 h2, submit_count payload h1 env = submit_count payload h2 env)
  /\ (forall h detail,
        result (submit_count payload h) env
        <> inl (HTTPException 401 detail))
  /\ (forall h svc,
        result get_sheets_service env = inr svc ->
        values_append (world env) svc (SHEET_ID (config env))
          "Input_Counts!A:G" "USER_ENTERED" (append_body payload (world env))
        = inr tt ->
        result (submit_count payload h) env
        = inr (JDict [("status", JStr "ok"); ("received", dict payload)])).
Proof.
  intros N.
  assert (P : forall h, pin_rejected (config env) h = false).
  { intros h. apply pin_absent_passes. rewrite N. reflexivity. }
  split; [|split].
  - intros h1 h2.
    rewrite (submit_count_passed payload h1 env (P h1)).
    rewrite (submit_count_passed payload h2 env (P h2)). reflexivity.
  - intros h detail. unfold result.
    rewrite (submit_count_passed payload h env (P h)).
    destruct (get_sheets_service env) as [[e | svc] t]; cbn [fst];
      [discriminate|].
    cbv zeta. destruct (values_append _ _ _ _ _ _); discriminate.
  - intros h svc G A. unfold result in *.
    rewrite (submit_count_passed payload h env (P h)).
    destruct (get_sheets_service env) as [[e | svc'] t]; cbn [fst] in *;
      [discriminate G|].
    injection G as ->. cbv zeta.
    change (TAB_NAME ++ "!A:G") with "Input_Counts!A:G".
    rewrite A. reflexivity.
Qed.

Lemma submit_count_open_access_witness :
  SHARED_PIN (config stub_env) = None
  /\ submit_count stub_payload (Some "0000") stub_env
     = submit_count stub_payload None stub_env
  /\ result (submit_count stub_payload (Some "0000")) stub_env
     = inr (JDict [("status", JStr "ok"); ("received", dict stub_payload)]).
Proof.
  destruct (submit_count_open_access stub_payload stub_env eq_refl)
    as (H1 & _ & H3).
  split; [reflexivity|]. split.
  - exact (H1 (Some "0000") None).
  - exact (H3 (Some "0000") 7 eq_refl eq_refl).
Defined.

(** C8. Whenever [/submit_count] succeeds, its answer is the success marker
    with the echo of the payload: {"status": "ok", "received": {the six
    fields with their values}}. *)
Theorem submit_count_echoes_payload (payload : CountPayload)
    (hdr : option string) (env : Env) (answer : Json) :
  result (submit_count payload hdr) env = inr answer ->
  answer
  = JDict
      [("status", JStr "ok");
       ("received",
        JDict
          [("counter_name", JStr (counter_name payload));
           ("store_name", JStr (store_name payload));
           ("sub_location", JStr (sub_location payload));
           ("item_name", JStr (item_name payload));
           ("condition", JStr (condition payload));
           ("qty", JNum (qty payload))])]
  /\ field "status" answer = Some (JStr "ok")
  /\ field "received" answer = Some (dict payload).
Proof.
  unfold result.
  destruct (pin_rejected (config env) hdr) eqn:P.
  - rewrite (submit_count_rejected payload hdr env P). discriminate.
  - rewrite (submit_count_passed payload hdr env P).
    destruct (get_sheets_service env) as [[e | svc] t]; cbn [fst];
      [discriminate|].
    cbv zeta. destruct (values_append _ _ _ _ _ _); cbn [fst];
      [discriminate|].
    intros [= <-]. repeat split.
Qed.

Lemma submit_count_echoes_payload_witness :
  result (submit_count stub_payload None) stub_env
  = inr (ok_response stub_payload)
  /\ ok_response stub_payload
     = JDict
         [("status", JStr "ok");
          ("received",
           JDict
             [("counter_name", JStr "A"); ("store_name", JStr "B");
              ("sub_location", JStr "C"); ("item_name", JStr "D");
              ("condition", JStr "E"); ("qty", JNum three_and_a_half)])].
Proof.
  split; [reflexivity|].
  exact (proj1 (submit_count_echoes_payload stub_payload None stub_env
                  (ok_response stub_payload) eq_refl)).
Defined.

(** C10. A shared secret configured as the empty text switches the check
    off: for every header, present or absent, [/submit_count] answers and
    calls exactly as it does with no secret configured. With a non-empty
    secret, a request without the header is refused with 401 "Invalid PIN"
    before any call is made. *)
Theorem submit_count_empty_pin_is_open (payload : CountPayload)
    (hdr : option string) (cfg : Config) (w : World) :
  submit_count payload hdr (mkEnv (with_pin (Some "") cfg) w)
  = submit_count payload hdr (mkEnv (with_pin None cfg) w)
  /\ (forall pin,
        pin <> "" ->
        submit_count payload None (mkEnv (with_pin (Some pin) cfg) w)
        = (inl (HTTPException 401 "Invalid PIN"), [])).
Proof.
  split.
  - rewrite !submit_count_passed by reflexivity.
    rewrite !get_sheets_service_ignores_pin. reflexivity.
  - intros pin N. apply submit_count_rejected, pin_rejected_spec.
    exists pin. repeat split; [exact N | discriminate].
Qed.

Lemma submit_count_empty_pin_is_open_witness :
  submit_count stub_payload (Some "0000") empty_pin_env
  = submit_count stub_payload (Some "0000") stub_env
  /\ "1234" <> ""
  /\ submit_count stub_payload None pin_env
     = (inl (HTTPException 401 "Invalid PIN"), []).
Proof.
  assert (N : "1234" <> "") by discriminate.
  destruct (submit_count_empty_pin_is_open stub_payload (Some "0000")
              stub_config stub_world) as (H1 & H2).
  split; [exact H1|]. split; [exact N|]. exact (H2 "1234" N).
Defined.

(** ** [str.strip] on examples *)

Example strip_ascii : strip "  a b  " = "a b".
Proof. reflexivity. Qed.

Example strip_blank : strip "   " = "" /\ strip "" = "".
Proof. split; reflexivity. Qed.

(** A tab, a no-break space (U+00A0, bytes C2 A0) and an ideographic space
    (U+3000, bytes E3 80 80) around a name. *)
Example strip_unicode :
  strip (String (ascii_of_nat 9)
           (String (ascii_of_nat 194) (String (ascii_of_nat 160)
              ("x" ++ String (ascii_of_nat 227)
                        (String (ascii_of_nat 128)
                           (String (ascii_of_nat 128) ""))))))
  = "x".
Proof. reflexivity. Qed.

(** ** [/items] *)

Section ItemNames.

Lemma nonempty_spec (s : string) : nonempty s = true <-> s <> "".
Proof. destruct s; cbn; split; congruence. Qed.

Lemma item_names_filter (values : list (list string)) :
  item_names values = filter kept (first_column values).
Proof.
  induction values as [| row rest IH]; [reflexivity|].
  destruct row as [| cell cells]; cbn; [exact IH|].
  fold (kept cell). destruct (kept cell); rewrite IH; reflexivity.
Qed.

Lemma first_column_In (values : list (list string)) (cell : string) :
  In cell (first_column values)
  <-> exists cells, In (cell :: cells) values.
Proof.
  induction values as [| row rest IH]; cbn.
  - split; [contradiction | intros [_ []]].
  - destruct row as [| c cs]; cbn; rewrite IH.
    + split.
      * intros [cells H]. exists cells. right. exact H.
      * intros [cells [H | H]]; [discriminate H | exists cells; exact H].
    + split.
      * intros [-> | [cells H]];
          [exists cs; left; reflexivity | exists cells; right; exact H].
      * intros [cells [H | H]];
          [left; congruence | right; exists cells; exact H].
Qed.

Lemma item_names_app (v1 v2 : list (list string)) :
  item_names (v1 ++ v2) = (item_names v1 ++ item_names v2)%list.
Proof.
  induction v1 as [| row rest IH]; [reflexivity|].
  destruct row as [| cell cells]; cbn; [exact IH|].
  destruct (nonempty (strip cell)); rewrite IH; reflexivity.
Qed.

Lemma strip_filter (cells : list string) :
  map strip (filter kept cells) = filter nonempty (map strip cells).
Proof.
  induction cells as [| c cs IH]; [reflexivity|].
  cbn. unfold kept at 1. destruct (nonempty (strip c)); cbn; rewrite IH;
    reflexivity.
Qed.

End ItemNames.

(** The example of the specification: blank and empty cells are left out. *)
Example item_names_stub_rows :
  item_names [["Widget"]; [" "]; [""]; ["Gadget"]] = ["Widget"; "Gadget"].
Proof. reflexivity. Qed.

(** C3, as the code has it. When the service is obtained and the read
    returns rows, [/items] answers {"items": [...]} with the first-column
    values of the rows, in order, as they were read (not trimmed), leaving
    out the empty rows and the rows whose first cell is empty or
    whitespace-only. Trimming the names returned gives the list of the
    specification. *)
Theorem get_items_lists_nonblank_names (env : Env) (svc : Service)
    (resp : option (list (list string))) :
  result get_sheets_service env = inr svc ->
  values_get (world env) svc (SHEET_ID (config env)) "Item_Master!B2:B"
  = inr resp ->
  let rows := values_or_empty resp in
  exists items,
    result get_items env = inr (JDict [("items", JList (map JStr items))])
    /\ items = filter (fun cell => nonempty (strip cell)) (first_column rows)
    /\ (forall name,
          In name items
          <-> (exists cells, In (name :: cells) rows) /\ strip name <> "")
    /\ map strip items = trimmed_nonblank_first_column rows.
Proof.
  intros G V rows. exists (item_names rows).
  split; [|split; [|split]].
  - unfold result in *. rewrite get_items_run.
    destruct (get_sheets_service env) as [[e | svc'] t]; cbn [fst] in *;
      [discriminate G|].
    injection G as ->. cbv zeta.
    change ITEM_MASTER_RANGE with "Item_Master!B2:B". rewrite V.
    reflexivity.
  - apply item_names_filter.
  - intros name. rewrite item_names_filter, filter_In, first_column_In.
    unfold kept. rewrite nonempty_spec. reflexivity.
  - rewrite item_names_filter. apply strip_filter.
Qed.

Lemma get_items_lists_nonblank_names_witness :
  result get_sheets_service stub_env = inr 7
  /\ values_get stub_world 7 (Some "sheet-1") "Item_Master!B2:B"
     = inr (Some [["Widget"]; [" "]; [""]; ["Gadget"]])
  /\ exists items,
       result get_items stub_env
       = inr (JDict [("items", JList (map JStr items))])
       /\ items = ["Widget"; "Gadget"].
Proof.
  split; [reflexivity|]. split; [reflexivity|].
  destruct (get_items_lists_nonblank_names stub_env 7 (Some stub_rows)
              eq_refl eq_refl) as (items & H1 & H2 & _).
  exists items. split; [exact H1 | exact H2].
Defined.

(** C3 as stated fails: a name read with spaces around it is returned with
    its spaces, where the specification has the trimmed name. *)
Lemma get_items_returns_untrimmed_name :
  values_get (world untrimmed_env) 7 (Some "sheet-1") "Item_Master!B2:B"
  = inr (Some [[" Widget "]])
  /\ result get_items untrimmed_env
     = inr (JDict [("items", JList [JStr " Widget "])])
  /\ trimmed_nonblank_first_column [[" Widget "]] = ["Widget"]
  /\ result get_items untrimmed_env
     <> inr (items_response (trimmed_nonblank_first_column [[" Widget "]])).
Proof.
  split; [reflexivity|]. split; [reflexivity|]. split; [reflexivity|].
  discriminate.
Qed.

(** C4. [/items] never raises: it always answers. When credential
    resolution raises, or when the service is obtained and the read raises,
    the answer is {"items": []}, and the only further effect is the line
    printed with the text of the error. *)
Theorem get_items_never_raises (env : Env) :
  (exists answer, result get_items env = inr answer)
  /\ (forall e,
        result get_sheets_service env = inl e ->
        get_items env
        = (inr (JDict [("items", JList [])]),
           (trace get_sheets_service env
            ++ [Call_print
                  ("Error loading items from Item_Master: " ++ exn_str e)])
           %list))
  /\ (forall svc msg,
        result get_sheets_service env = inr svc ->
        values_get (world env) svc (SHEET_ID (config env)) "Item_Master!B2:B"
        = inl msg ->
        get_items env
        = (inr (JDict [("items", JList [])]),
           (trace get_sheets_service env
            ++ [Call_values_get svc (SHEET_ID (config env))
                  "Item_Master!B2:B";
                Call_print ("Error loading items from Item_Master: " ++ msg)])
           %list)).
Proof.
  unfold result, trace. rewrite get_items_run.
  destruct (get_sheets_service env) as [[e | svc] t]; cbn [fst snd].
  - split; [eexists; reflexivity|]. split.
    + intros e' [= <-]. reflexivity.
    + intros svc msg [=].
  - cbv zeta. change ITEM_MASTER_RANGE with "Item_Master!B2:B".
    split; [|split].
    + destruct (values_get _ _ _ _); eexists; reflexivity.
    + intros e [=].
    + intros svc' msg [= <-] V. rewrite V. reflexivity.
Qed.

Lemma get_items_never_raises_witness :
  result get_sheets_service no_sheet_env
  = inl (RuntimeError "SHEET_ID env var is not set")
  /\ result get_items no_sheet_env = inr (JDict [("items", JList [])])
  /\ values_get (world failing_get_env) 7 (Some "sheet-1") "Item_Master!B2:B"
     = inl "HttpError 403"
  /\ result get_items failing_get_env = inr (JDict [("items", JList [])]).
Proof.
  split; [reflexivity|]. split.
  - exact (f_equal fst
             (proj1 (proj2 (get_items_never_raises no_sheet_env))
                (RuntimeError "SHEET_ID env var is not set") eq_refl)).
  - split; [reflexivity|].
    exact (f_equal fst
             (proj2 (proj2 (get_items_never_raises failing_get_env))
                7 "HttpError 403" eq_refl eq_refl)).
Defined.

(** ** [/health] *)

(** C9. [/health] answers {"status": "running"} and makes no call, whatever
    the configuration and the world. *)
Theorem health_is_constant (env : Env) :
  health env = (inr (JDict [("status", JStr "running")]), []).
Proof. reflexivity. Qed.


(** * Further properties of the code *)

(** ** The calls of the credential loader *)

Lemma loader_trace_kinds (env : Env) :
  filter is_entry (trace get_sheets_service env) = [Call_get_sheets_service]
  /\ filter is_read (trace get_sheets_service env) = []
  /\ filter is_print (trace get_sheets_service env) = []
  /\ filter is_clock (trace get_sheets_service env) = [].
Proof. cases_of get_sheets_service_run; repeat split; reflexivity. Qed.

(** X2. The two credential sources exclude each other in every run of
    [get_sheets_service]: with an inline credential present no call is made
    for the key file ([os.path.exists], [from_service_account_file]), and
    with it absent no call is made for the inline credential ([json.loads],
    [from_service_account_info]). *)
Theorem loader_sources_exclusive (env : Env) :
  (if truthy (SERVICE_ACCOUNT_JSON (config env))
   then filter is_key_file_call (trace get_sheets_service env)
   else filter is_inline_call (trace get_sheets_service env)) = []
  /\ (filter is_inline_call (trace get_sheets_service env) = []
      \/ filter is_key_file_call (trace get_sheets_service env) = []).
Proof.
  cases_of get_sheets_service_run; (split; [reflexivity|]);
    first [left; reflexivity | right; reflexivity].
Qed.

(** X3. The loader never opens a key file that it has not found to exist.
    Whenever [from_service_account_file] is called, the inline credential is
    absent, the path is SERVICE_ACCOUNT_FILE itself when absolute and that
    path joined to the directory of the module otherwise, [os.path.exists]
    was asked about that same path and answered yes, and the scopes are
    SCOPES. *)
Theorem loader_opens_only_existing_key_file (env : Env) (path : string)
    (scopes : list string) :
  In (Call_from_service_account_file path scopes)
     (trace get_sheets_service env) ->
  let w := world env in
  let file := text_of (SERVICE_FILE (config env)) in
  truthy (SERVICE_ACCOUNT_JSON (config env)) = false
  /\ truthy (SERVICE_FILE (config env)) = true
  /\ path = (if path_isabs w file then file
             else path_join w (path_dirname w (module_file w)) file)
  /\ path_exists w path = true
  /\ scopes = SCOPES
  /\ In (Call_path_exists path) (trace get_sheets_service env).
Proof.
  intros H w file. subst w file.
  change (if path_isabs (world env) (text_of (SERVICE_FILE (config env)))
          then _ else _)
    with (sa_path_of (world env) (text_of (SERVICE_FILE (config env)))).
  revert H.
  cases_of get_sheets_service_run; intros H; trace_member H;
    injection H as <- <-;
    repeat split;
    first [ reflexivity | assumption | apply negb_false_iff; assumption
          | right; left; reflexivity ].
Qed.

Lemma loader_opens_only_existing_key_file_witness :
  In (Call_from_service_account_file "/app/key.json" SCOPES)
     (trace get_sheets_service key_file_env)
  /\ path_exists stub_world "/app/key.json" = true
  /\ In (Call_path_exists "/app/key.json")
       (trace get_sheets_service key_file_env).
Proof.
  assert (H : In (Call_from_service_account_file "/app/key.json" SCOPES)
                (trace get_sheets_service key_file_env)).
  { right. right. left. reflexivity. }
  split; [exact H|].
  destruct (loader_opens_only_existing_key_file key_file_env
              "/app/key.json" SCOPES H) as (_ & _ & _ & E & _ & P).
  split; [exact E | exact P].
Defined.





(** X6. A service comes from [build] and from nowhere else: whenever
    [get_sheets_service] returns a service, its last call is
    [build("sheets", "v4", creds)], which returned that service, and no
    earlier call is a [build]. In every run [build] is called at most
    once. *)
Theorem loader_returns_what_build_returns (env : Env) :
  length (filter is_build (trace get_sheets_service env)) <= 1
  /\ forall svc,
       result get_sheets_service env = inr svc ->
       exists creds before,
         trace get_sheets_service env
         = (before ++ [Call_build "sheets" "v4" creds])%list
         /\ filter is_build before = []
         /\ build (world env) "sheets" "v4" creds = inr svc.
Proof.
  split.
  - cases_of get_sheets_service_run; cbn; auto.
  - intros svc. unfold result, trace. rewrite get_sheets_service_run.
    cbv zeta.
    destruct (negb (truthy (SHEET_ID (config env)))); [discriminate|].
    destruct (truthy (SERVICE_ACCOUNT_JSON (config env))).
    + destruct (json_loads _ _) as [msg | info]; [discriminate|].
      destruct (from_service_account_info _ _ _) as [msg | creds];
        [discriminate|].
      destruct (build _ _ _ _) as [msg | svc'] eqn:B; [discriminate|].
      cbn [fst snd]. intros [= <-]. exists creds. eexists.
      split; [reflexivity|]. split; [reflexivity | exact B].
    + destruct (truthy (SERVICE_FILE (config env))); [|discriminate].
      destruct (negb (path_exists _ _)); [discriminate|].
      destruct (from_service_account_file _ _ _) as [msg | creds];
        [discriminate|].
      destruct (build _ _ _ _) as [msg | svc'] eqn:B; [discriminate|].
      cbn [fst snd]. intros [= <-]. exists creds. eexists.
      split; [reflexivity|]. split; [reflexivity | exact B].
Qed.

Lemma loader_returns_what_build_returns_witness :
  result get_sheets_service key_file_env = inr 7
  /\ exists creds before,
       trace get_sheets_service key_file_env
       = (before ++ [Call_build "sheets" "v4" creds])%list
       /\ filter is_build before = []
       /\ build (world key_file_env) "sheets" "v4" creds = inr 7.
Proof.
  split; [reflexivity|].
  exact (proj2 (loader_returns_what_build_returns key_file_env) 7 eq_refl).
Defined.

(** ** The endpoints and the loader *)

(** X1. A missing or empty SHEET_ID is reported before any credential is
    looked at, and reaches both data endpoints, whatever credentials are
    configured: the loader raises "SHEET_ID env var is not set" having
    called no library; [/items] answers {"items": []} and prints the error;
    [/submit_count], past the PIN check, answers 500 with
    "Config error: SHEET_ID env var is not set" and appends nothing. *)
Theorem missing_sheet_id_at_every_endpoint (payload : CountPayload)
    (hdr : option string) (env : Env) :
  truthy (SHEET_ID (config env)) = false ->
  get_sheets_service env
  = (inl (RuntimeError "SHEET_ID env var is not set"),
     [Call_get_sheets_service])
  /\ get_items env
     = (inr (JDict [("items", JList [])]),
        [Call_get_sheets_service;
         Call_print
           "Error loading items from Item_Master: SHEET_ID env var is not set"])
  /\ (pin_rejected (config env) hdr = false ->
      submit_count payload hdr env
      = (inl (HTTPException 500 "Config error: SHEET_ID env var is not set"),
         [Call_get_sheets_service])).
Proof.
  intros S.
  assert (G : get_sheets_service env
              = (inl (RuntimeError "SHEET_ID env var is not set"),
                 [Call_get_sheets_service])).
  { rewrite get_sheets_service_run. cbv zeta. rewrite S. reflexivity. }
  split; [exact G|]. split.
  - rewrite get_items_run, G. reflexivity.
  - intros P. rewrite (submit_count_passed payload hdr env P), G.
    reflexivity.
Qed.

Lemma missing_sheet_id_at_every_endpoint_witness :
  truthy (SHEET_ID (config no_sheet_env)) = false
  /\ pin_rejected (config no_sheet_env) (Some "0000") = false
  /\ submit_count stub_payload (Some "0000") no_sheet_env
     = (inl (HTTPException 500 "Config error: SHEET_ID env var is not set"),
        [Call_get_sheets_service]).
Proof.
  split; [reflexivity|]. split; [reflexivity|].
  exact (proj2 (proj2 (missing_sheet_id_at_every_endpoint stub_payload
                         (Some "0000") no_sheet_env eq_refl))
           eq_refl).
Defined.

(** X7. Credentials are resolved anew, and once, by every request that
    needs them: a run of [/items] enters [get_sheets_service] exactly once,
    and a run of [/submit_count] exactly once when the PIN check passes and
    not at all when it rejects. *)
Theorem credentials_resolved_once_per_request (payload : CountPayload)
    (hdr : option string) (env : Env) :
  filter is_entry (trace get_items env) = [Call_get_sheets_service]
  /\ filter is_entry (trace (submit_count payload hdr) env)
     = if pin_rejected (config env) hdr then []
       else [Call_get_sheets_service].
Proof.
  destruct (loader_trace_kinds env) as (E & _).
  unfold trace in *. split.
  - rewrite get_items_run.
    destruct (get_sheets_service env) as [[e | svc] t]; cbn [snd] in *.
    + rewrite filter_app, E. reflexivity.
    + cbv zeta. destruct (values_get _ _ _ _); cbn [snd];
        rewrite filter_app, E; reflexivity.
  - destruct (pin_rejected (config env) hdr) eqn:P.
    + rewrite (submit_count_rejected payload hdr env P). reflexivity.
    + rewrite (submit_count_passed payload hdr env P).
      destruct (get_sheets_service env) as [[e | svc] t]; cbn [snd] in *;
        [exact E|].
      cbv zeta. destruct (values_append _ _ _ _ _ _); cbn [snd];
        rewrite filter_app, E; reflexivity.
Qed.

(** X8. [/items] only reads: it never appends and never asks for the date.
    It reads the sheet at most once, and the read is of the range
    Item_Master!B2:B of SHEET_ID on the service just obtained; when no
    service is obtained it does not read. *)
Theorem get_items_only_reads (env : Env) :
  append_calls (trace get_items env) = []
  /\ filter is_clock (trace get_items env) = []
  /\ filter is_read (trace get_items env)
     = match result get_sheets_service env with
       | inr svc =>
           [Call_values_get svc (SHEET_ID (config env)) "Item_Master!B2:B"]
       | inl _ => []
       end.
Proof.
  pose proof (get_sheets_service_no_append env) as A.
  destruct (loader_trace_kinds env) as (_ & R & _ & C).
  unfold append_calls, trace, result in *. rewrite get_items_run.
  destruct (get_sheets_service env) as [[e | svc] t]; cbn [fst snd] in *.
  - rewrite !filter_app, A, C, R. repeat split.
  - cbv zeta. destruct (values_get _ _ _ _); cbn [snd];
      rewrite !filter_app, A, C, R; repeat split.
Qed.

(** X9. [/items] prints exactly when something failed, and then one line: a
    run prints nothing if and only if the service was obtained and the read
    returned. In particular a response without the "values" key, which is
    what an empty range gives, is not an error: the answer is {"items": []}
    and nothing is printed. *)
Theorem get_items_prints_on_failure_only (env : Env) :
  length (filter is_print (trace get_items env)) <= 1
  /\ (filter is_print (trace get_items env) = []
      <-> exists svc resp,
            result get_sheets_service env = inr svc
            /\ values_get (world env) svc (SHEET_ID (config env))
                 "Item_Master!B2:B"
               = inr resp)
  /\ (forall svc,
        result get_sheets_service env = inr svc ->
        values_get (world env) svc (SHEET_ID (config env)) "Item_Master!B2:B"
        = inr None ->
        get_items env
        = (inr (JDict [("items", JList [])]),
           (trace get_sheets_service env
            ++ [Call_values_get svc (SHEET_ID (config env))
                  "Item_Master!B2:B"])%list)).
Proof.
  destruct (loader_trace_kinds env) as (_ & _ & Pr & _).
  unfold trace, result in *. rewrite get_items_run.
  change ITEM_MASTER_RANGE with "Item_Master!B2:B".
  destruct (get_sheets_service env) as [[e | svc] t]; cbn [fst snd] in *.
  - rewrite filter_app, Pr. cbn. split; [auto|]. split.
    + split; [discriminate | intros (svc & resp & H & _); discriminate H].
    + intros svc H. discriminate H.
  - cbv zeta.
    destruct (values_get _ _ _ _) as [msg | resp] eqn:V; cbn [fst snd];
      rewrite filter_app, Pr; cbn.
    + split; [auto|]. split.
      * split; [discriminate|].
        intros (svc' & resp & [= <-] & H). rewrite V in H. discriminate H.
      * intros svc' [= <-] H. rewrite V in H. discriminate H.
    + split; [auto|]. split.
      * split; [|reflexivity]. intros _. exists svc, resp. auto.
      * intros svc' [= <-] H. rewrite V in H. injection H as ->.
        reflexivity.
Qed.

Lemma get_items_prints_on_failure_only_witness :
  result get_sheets_service no_values_env = inr 7
  /\ values_get (world no_values_env) 7 (Some "sheet-1") "Item_Master!B2:B"
     = inr None
  /\ get_items no_values_env
     = (inr (JDict [("items", JList [])]),
        (trace get_sheets_service no_values_env
         ++ [Call_values_get 7 (Some "sheet-1") "Item_Master!B2:B"])%list).
Proof.
  split; [reflexivity|]. split; [reflexivity|].
  exact (proj2 (proj2 (get_items_prints_on_failure_only no_values_env))
           7 eq_refl eq_refl).
Defined.

(** X17. [/items] is not behind the PIN: its answer and its calls are the
    same whatever SHARED_PIN holds. *)
Theorem get_items_ignores_pin (pin : option string) (cfg : Config)
    (w : World) :
  get_items (mkEnv (with_pin pin cfg) w) = get_items (mkEnv cfg w).
Proof.
  rewrite !get_items_run, get_sheets_service_ignores_pin. reflexivity.
Qed.

(** ** More on [/submit_count] *)

Lemma differs_same (a b : option string) : differs a b = false <-> a = b.
Proof.
  destruct a as [x |], b as [y |]; cbn.
  - rewrite negb_false_iff, String.eqb_eq. split; congruence.
  - split; discriminate.
  - split; discriminate.
  - split; reflexivity.
Qed.

Lemma pin_passes_spec (cfg : Config) (hdr : option string) :
  pin_rejected cfg hdr = false
  <-> truthy (SHARED_PIN cfg) = false \/ hdr = SHARED_PIN cfg.
Proof.
  unfold pin_rejected. rewrite andb_false_iff, differs_same. reflexivity.
Qed.

(** X12. [/submit_count] answers with success exactly when three things
    hold: the PIN check lets the request through (no usable SHARED_PIN, or
    the header equal to it), [get_sheets_service] returns a service, and the
    append of the row on that service returns. *)
Theorem submit_count_succeeds_exactly_when (payload : CountPayload)
    (hdr : option string) (env : Env) :
  (exists answer, result (submit_count payload hdr) env = inr answer)
  <-> (truthy (SHARED_PIN (config env)) = false
       \/ hdr = SHARED_PIN (config env))
      /\ exists svc,
           result get_sheets_service env = inr svc
           /\ values_append (world env) svc (SHEET_ID (config env))
                "Input_Counts!A:G" "USER_ENTERED"
                (JDict
                   [("values",
                     JList
                       [JList
                          (row_of payload
                             (isoformat (date_today (world env))))])])
              = inr tt.
Proof.
  rewrite <- pin_passes_spec. unfold result.
  destruct (pin_rejected (config env) hdr) eqn:P.
  - rewrite (submit_count_rejected payload hdr env P). split.
    + intros [answer H]. discriminate H.
    + intros [H _]. discriminate H.
  - rewrite (submit_count_passed payload hdr env P).
    change (TAB_NAME ++ "!A:G") with "Input_Counts!A:G".
    unfold append_body.
    destruct (get_sheets_service env) as [[e | svc] t]; cbn [fst].
    + split.
      * intros [answer H]. discriminate H.
      * intros [_ (svc & H & _)]. discriminate H.
    + cbv zeta.
      destruct (values_append _ _ _ _ _ _) as [msg | []] eqn:A; cbn [fst].
      * split.
        -- intros [answer H]. discriminate H.
        -- intros [_ (svc' & [= <-] & H)]. rewrite A in H. discriminate H.
      * split.
        -- intros _. split; [reflexivity|]. exists svc. auto.
        -- intros _. eexists. reflexivity.
Qed.

(** X13. The failures of [/submit_count] are of three kinds and no other:
    401 "Invalid PIN", exactly when the PIN check rejects; 500 with
    "Config error: " and the text of the loader's error, when the check
    passes and the loader raises; 500 with "Sheets append failed: " and the
    text of the error, when the service is obtained and the append
    raises. *)
Theorem submit_count_failure_kinds (payload : CountPayload)
    (hdr : option string) (env : Env) (status : nat) (detail : string) :
  result (submit_count payload hdr) env = inl (HTTPException status detail) ->
  (status = 401 /\ detail = "Invalid PIN"
   /\ pin_rejected (config env) hdr = true)
  \/ (status = 500 /\ pin_rejected (config env) hdr = false
      /\ ((exists e,
             result get_sheets_service env = inl e
             /\ detail = "Config error: " ++ exn_str e)
          \/ (exists svc msg,
                result get_sheets_service env = inr svc
                /\ values_append (world env) svc (SHEET_ID (config env))
                     "Input_Counts!A:G" "USER_ENTERED"
                     (append_body payload (world env))
                   = inl msg
                /\ detail = "Sheets append failed: " ++ msg))).
Proof.
  unfold result.
  destruct (pin_rejected (config env) hdr) eqn:P.
  - rewrite (submit_count_rejected payload hdr env P).
    intros [= <- <-]. left. auto.
  - rewrite (submit_count_passed payload hdr env P).
    change (TAB_NAME ++ "!A:G") with "Input_Counts!A:G".
    destruct (get_sheets_service env) as [[e | svc] t]; cbn [fst].
    + intros [= <- <-]. right. repeat split. left. exists e. auto.
    + cbv zeta.
      destruct (values_append _ _ _ _ _ _) as [msg | u] eqn:A; cbn [fst];
        [|discriminate].
      intros [= <- <-]. right. repeat split. right. exists svc, msg. auto.
Qed.

Lemma submit_count_failure_kinds_witness :
  result (submit_count stub_payload None) failing_append_env
  = inl (HTTPException 500 "Sheets append failed: HttpError 429")
  /\ ((500 = 401 /\ "Sheets append failed: HttpError 429" = "Invalid PIN"
       /\ pin_rejected (config failing_append_env) None = true)
      \/ (500 = 500 /\ pin_rejected (config failing_append_env) None = false
          /\ ((exists e,
                 result get_sheets_service failing_append_env = inl e
                 /\ "Sheets append failed: HttpError 429"
                    = "Config error: " ++ exn_str e)
              \/ (exists svc msg,
                    result get_sheets_service failing_append_env = inr svc
                    /\ values_append (world failing_append_env) svc
                         (SHEET_ID (config failing_append_env))
                         "Input_Counts!A:G" "USER_ENTERED"
                         (append_body stub_payload
                            (world failing_append_env))
                       = inl msg
                    /\ "Sheets append failed: HttpError 429"
                       = "Sheets append failed: " ++ msg)))).
Proof.
  split; [reflexivity|].
  exact (submit_count_failure_kinds stub_payload None failing_append_env
           500 "Sheets append failed: HttpError 429" eq_refl).
Defined.

(** X14. [/submit_count] appends at most once per request and never tries
    again: the trace holds at most one append call. The date is asked for
    exactly when an append is attempted. A success is never answered
    without the one append call. When the PIN check passes and the loader
    raises, the request does nothing beyond the loader's own calls. *)
Theorem submit_count_appends_at_most_once (payload : CountPayload)
    (hdr : option string) (env : Env) :
  length (append_calls (trace (submit_count payload hdr) env)) <= 1
  /\ length (filter is_clock (trace (submit_count payload hdr) env))
     = length (append_calls (trace (submit_count payload hdr) env))
  /\ (forall answer,
        result (submit_count payload hdr) env = inr answer ->
        length (append_calls (trace (submit_count payload hdr) env)) = 1)
  /\ (forall e,
        pin_rejected (config env) hdr = false ->
        result get_sheets_service env = inl e ->
        trace (submit_count payload hdr) env = trace get_sheets_service env).
Proof.
  pose proof (get_sheets_service_no_append env) as A.
  destruct (loader_trace_kinds env) as (_ & _ & _ & C).
  unfold append_calls, trace, result in *.
  destruct (pin_rejected (config env) hdr) eqn:P.
  - rewrite (submit_count_rejected payload hdr env P). cbn.
    split; [auto|]. split; [reflexivity|]. split; discriminate.
  - rewrite (submit_count_passed payload hdr env P).
    destruct (get_sheets_service env) as [[e | svc] t]; cbn [fst snd] in *.
    + rewrite A, C. cbn. split; [auto|]. split; [reflexivity|].
      split; [discriminate | reflexivity].
    + cbv zeta.
      destruct (values_append _ _ _ _ _ _) as [msg | u]; cbn [fst snd];
        rewrite !filter_app, A, C; cbn;
        (split; [auto|]); (split; [reflexivity|]);
        (split; [first [discriminate | reflexivity] | discriminate]).
Qed.

Lemma submit_count_appends_at_most_once_witness :
  result (submit_count stub_payload None) stub_env
  = inr (ok_response stub_payload)
  /\ length (append_calls (trace (submit_count stub_payload None) stub_env))
     = 1
  /\ pin_rejected (config no_sheet_env) None = false
  /\ result get_sheets_service no_sheet_env
     = inl (RuntimeError "SHEET_ID env var is not set")
  /\ trace (submit_count stub_payload None) no_sheet_env
     = trace get_sheets_service no_sheet_env.
Proof.
  split; [reflexivity|]. split.
  - exact (proj1 (proj2 (proj2 (submit_count_appends_at_most_once
                                  stub_payload None stub_env)))
             (ok_response stub_payload) eq_refl).
  - split; [reflexivity|]. split; [reflexivity|].
    exact (proj2 (proj2 (proj2 (submit_count_appends_at_most_once
                                  stub_payload None no_sheet_env)))
             (RuntimeError "SHEET_ID env var is not set") eq_refl eq_refl).
Defined.

(** X15. A header equal to the configured PIN buys exactly the open
    access: with SHARED_PIN set to some text and the header carrying that
    text, [/submit_count] answers and calls as it does, for any header, when
    no PIN is configured. *)
Theorem submit_count_correct_pin_is_open (payload : CountPayload)
    (pin : string) (hdr : option string) (cfg : Config) (w : World) :
  submit_count payload (Some pin) (mkEnv (with_pin (Some pin) cfg) w)
  = submit_count payload hdr (mkEnv (with_pin None cfg) w).
Proof.
  assert (P : pin_rejected (config (mkEnv (with_pin (Some pin) cfg) w))
                (Some pin) = false).
  { apply pin_passes_spec. right. reflexivity. }
  rewrite (submit_count_passed payload (Some pin) _ P).
  rewrite (submit_count_passed payload hdr (mkEnv (with_pin None cfg) w))
    by reflexivity.
  rewrite !get_sheets_service_ignores_pin. reflexivity.
Qed.

(** X16. The echo reports what was written. On a success, the row that was
    appended, its date cell (the fourth) taken out, lists the values of
    "received" in the order of its keys counter_name, store_name,
    sub_location, item_name, condition, qty; the date cell holds today's
    date text. *)
Theorem submit_count_echo_matches_row (payload : CountPayload)
    (hdr : option string) (env : Env) (answer : Json) :
  result (submit_count payload hdr) env = inr answer ->
  exists svc row fields,
    append_calls (trace (submit_count payload hdr) env)
    = [Call_values_append svc (SHEET_ID (config env)) "Input_Counts!A:G"
         "USER_ENTERED" (JDict [("values", JList [JList row])])]
    /\ field "received" answer = Some (JDict fields)
    /\ without_date row = map snd fields
    /\ map fst fields
       = ["counter_name"; "store_name"; "sub_location"; "item_name";
          "condition"; "qty"]
    /\ nth_error row 3
       = Some (JStr (isoformat (date_today (world env)))).
Proof.
  pose proof (get_sheets_service_no_append env) as A.
  unfold append_calls, trace, result in *.
  destruct (pin_rejected (config env) hdr) eqn:P.
  - rewrite (submit_count_rejected payload hdr env P). discriminate.
  - rewrite (submit_count_passed payload hdr env P).
    destruct (get_sheets_service env) as [[e | svc] t]; cbn [fst snd] in *;
      [discriminate|].
    cbv zeta. destruct (values_append _ _ _ _ _ _); cbn [fst snd];
      [discriminate|].
    intros [= <-]. rewrite filter_app, A.
    exists svc. eexists. eexists.
    split; [reflexivity|]. repeat split.
Qed.

Lemma submit_count_echo_matches_row_witness :
  result (submit_count stub_payload None) stub_env
  = inr (ok_response stub_payload)
  /\ exists svc row fields,
       append_calls (trace (submit_count stub_payload None) stub_env)
       = [Call_values_append svc (SHEET_ID (config stub_env))
            "Input_Counts!A:G" "USER_ENTERED"
            (JDict [("values", JList [JList row])])]
       /\ field "received" (ok_response stub_payload) = Some (JDict fields)
       /\ without_date row = map snd fields
       /\ map fst fields
          = ["counter_name"; "store_name"; "sub_location"; "item_name";
             "condition"; "qty"]
       /\ nth_error row 3
          = Some (JStr (isoformat (date_today (world stub_env)))).
Proof.
  split; [reflexivity|].
  exact (submit_count_echo_matches_row stub_payload None stub_env
           (ok_response stub_payload) eq_refl).
Defined.

(** ** More on the item list *)

(** X10. The item list looks at the first cell of each row and at nothing
    else: cutting every row down to its first cell gives the same names.
    It holds at most one name per row. *)
Theorem item_names_first_column_only (values : list (list string)) :
  item_names values = item_names (map (firstn 1) values)
  /\ length (item_names values) <= length values.
Proof.
  split.
  - induction values as [| row rest IH]; [reflexivity|].
    destruct row as [| cell cells]; cbn; [exact IH|].
    destruct (nonempty (strip cell)); rewrite IH; reflexivity.
  - induction values as [| row rest IH]; [apply Nat.le_refl|].
    destruct row as [| cell cells]; cbn; [lia|].
    destruct (nonempty (strip cell)); cbn; lia.
Qed.

(** X11. The item list keeps the order of the sheet and removes no
    duplicate: the names of two runs of rows put end to end are the names of
    the first followed by the names of the second, and a name with a
    non-blank trimmed form occurs in the list as many times as it occurs as
    a first cell. *)
Theorem item_names_keeps_order_and_duplicates
    (v1 v2 : list (list string)) (name : string) :
  item_names (v1 ++ v2) = (item_names v1 ++ item_names v2)%list
  /\ (strip name <> "" ->
      count_occ string_dec (item_names v1) name
      = count_occ string_dec (first_column v1) name).
Proof.
  split; [apply item_names_app|].
  intros K. apply nonempty_spec in K.
  induction v1 as [| row rest IH]; [reflexivity|].
  destruct row as [| cell cells]; cbn [item_names first_column]; [exact IH|].
  destruct (string_dec cell name) as [-> | N].
  - rewrite K. cbn [count_occ].
    destruct (string_dec name name); [|contradiction].
    rewrite IH. reflexivity.
  - destruct (nonempty (strip cell)); cbn [count_occ];
      destruct (string_dec cell name); try contradiction; exact IH.
Qed.

Lemma item_names_keeps_order_and_duplicates_witness :
  strip "Widget" <> ""
  /\ count_occ string_dec
       (item_names [["Widget"]; [" "]; ["Widget"; "x"]]) "Widget"
     = 2.
Proof.
  assert (K : strip "Widget" <> "") by discriminate.
  split; [exact K|].
  exact (proj2 (item_names_keeps_order_and_duplicates
                  [["Widget"]; [" "]; ["Widget"; "x"]] [] "Widget") K).
Defined.

Lemma submit_count_succeeds_exactly_when_witness :
  (truthy (SHARED_PIN (config pin_env)) = false
   \/ Some "1234" = SHARED_PIN (config pin_env))
  /\ result get_sheets_service pin_env = inr 7
  /\ exists answer,
       result (submit_count stub_payload (Some "1234")) pin_env = inr answer.
Proof.
  assert (P : truthy (SHARED_PIN (config pin_env)) = false
              \/ Some "1234" = SHARED_PIN (config pin_env)).
  { right. reflexivity. }
  split; [exact P|]. split; [reflexivity|].
  apply (proj2 (submit_count_succeeds_exactly_when stub_payload
                  (Some "1234") pin_env)).
  split; [exact P|]. exists 7. split; reflexivity.
Defined.
